(** * Algorithm Learning Hub (streamlit_app.py): the computations behind the pages

    The script is a sequence of page branches.  Four of them compute
    something: the growth-function table of the "Order of Growth" page, the
    bound construction of the "Theta Notation" page, the "Run Simulation"
    handler of the "Time Complexity" page and the "Estimate Complexity"
    handler of the "Complexity Calculator" page.  Each is embedded below as a
    function of the widget values it reads.

    Numbers.  Python [int] is [Z].  The slider constants of the Theta page
    are decimals with one digit and are taken as rationals ([Q]), as are the
    sample vectors; for the constants 0.5 and 2.0 on integer samples every
    intermediate value is a small dyadic rational, which binary64 holds
    exactly.  [np.log2], [math.log2] and [np.exp2] are taken as the real
    functions ([R]); where the script truncates a logarithm to an integer, an
    executable integer form is used and proved to be the integer part of the
    real value. *)

From Stdlib Require Import ZArith QArith Reals List String Ascii Bool Lia Psatz.
From Stdlib Require Import DecimalString.
From Equations Require Import Equations.
Import ListNotations.

(** ** Python built-ins used by the script *)

Module Py.

Local Open Scope Z_scope.

(** [range(n)]: 0, 1, ..., n-1; empty when [n <= 0]. *)
Definition range (n : Z) : list Z :=
  map Z.of_nat (seq 0 (Z.to_nat n)).

(** [for x in xs: s = body(s, x)] *)
Definition for_in {A S : Type} (xs : list A) (body : S -> A -> S) (s : S) : S :=
  fold_left body xs s.

(** Exceptions that the modelled code can raise. *)
Inductive exn : Type :=
| ValueError (msg : string).

(** Outcome of a statement block: the value it leaves, or the exception that
    escapes it. *)
Inductive outcome (A : Type) : Type :=
| Returned (a : A)
| Raised (e : exn).
Arguments Returned {A} a.
Arguments Raised {A} e.

Definition bind {A B : Type} (m : outcome A) (k : A -> outcome B) : outcome B :=
  match m with
  | Returned a => k a
  | Raised e => Raised e
  end.

Notation "x <- m ;; k" := (bind m (fun x => k))
  (at level 61, m at next level, right associativity).

(** [int(size * math.log2(size))] for an [int] argument.

    [math.log2] raises [ValueError("math domain error")] on a non-positive
    argument.  For [size >= 1] the product is non-negative and [int]
    truncates it, so the value is the floor of [size * log2 size], that is
    the largest [k] with [2^k <= size^size]. *)
Definition int_size_log2 (size : Z) : outcome Z :=
  if size <=? 0 then Raised (ValueError "math domain error")
  else Returned (Z.log2 (size ^ size)).

End Py.

(** ** Time Complexity page: the Run Simulation handler (lines 220-260) *)

Module Simulator.

Import Py.
Local Open Scope Z_scope.

(** Options of the "Select Algorithms" multiselect. *)
Inductive Algorithm : Type := Linear | Binary | Bubble | Merge.

(** The "Input Size (n)" slider: [st.slider(_, 100, 5000, 1000)]. *)
Definition size_min : Z := 100.
Definition size_max : Z := 5000.
Definition slider_size (size : Z) : Prop := size_min <= size <= size_max.

(** *** The Binary branch: [while val > 1: val //= 2; total += 1] *)

Definition halving_guard (s : Z * Z) : bool := 1 <? fst s.
Definition halving_body (s : Z * Z) : Z * Z := (fst s / 2, snd s + 1).

(** The loop on the pair [(val, total)]; the recursion is on the value of
    [val], which shrinks at each iteration because [1 < val]. *)
Equations? halving_loop (val total : Z) : Z * Z by wf (Z.to_nat val) lt :=
  halving_loop val total with Z_lt_dec 1 val => {
    | left _ := halving_loop (val / 2) (total + 1);
    | right _ := (val, total) }.
Proof.
  assert (0 <= val / 2 < val).
  { split; [apply Z.div_pos; lia | apply Z.div_lt; lia]. }
  lia.
Qed.

(** Execution of the same loop as a relation that counts the iterations:
    [while_run s k s'] when the loop entered in state [s] runs its body
    exactly [k] times and leaves in state [s']. *)
Inductive while_run : Z * Z -> nat -> Z * Z -> Prop :=
| run_exit s :
    halving_guard s = false -> while_run s 0 s
| run_iter s k s' :
    halving_guard s = true ->
    while_run (halving_body s) k s' ->
    while_run s (S k) s'.

(** *** The four branches: the value of [total] when the branch ends *)

Definition run_branch (alg : Algorithm) (size : Z) : outcome Z :=
  let total := 0 in
  match alg with
  | Linear =>
      Returned (for_in (range size) (fun total _ => total + 1) total)
  | Binary =>
      let val := size in
      Returned (snd (halving_loop val total))
  | Bubble =>
      Returned
        (for_in (range size) (fun total i =>
           for_in (range size) (fun total j => total + (i + j)) total) total)
  | Merge =>
      bound <- int_size_log2 size ;;
      Returned (for_in (range bound) (fun total _ => total + 1) total)
  end.

(** What one iteration of [for alg in selected_algorithms] computes.  The
    script keeps [elapsed] in [runtimes[alg]]; [total] is the counter the
    branch leaves behind. *)
Record SimulationResult : Type := {
  algorithmId : Algorithm;
  inputSize : Z;
  operationCount : Z;
  elapsedTimeSeconds : Q
}.

(** [start] and [stop] are the two readings of [time.perf_counter()]; they
    come from the environment. *)
Definition simulate (start stop : Q) (alg : Algorithm) (size : Z)
  : outcome SimulationResult :=
  total <- run_branch alg size ;;
  let elapsed := (stop - start)%Q in
  Returned {| algorithmId := alg; inputSize := size;
              operationCount := total; elapsedTimeSeconds := elapsed |}.

(** The count of a run, when there is one. *)
Definition count_of (r : outcome SimulationResult) : outcome Z :=
  res <- r ;; Returned (operationCount res).

(** The whole handler: one simulation per selected algorithm, in order, the
    clock being read twice per algorithm; [runtimes] is the dict it fills, an
    exception ends the handler. *)
Fixpoint run_simulation (clock : nat -> Q) (tick : nat)
  (selected_algorithms : list Algorithm) (size : Z)
  (runtimes : list (Algorithm * Q)) : outcome (list (Algorithm * Q)) :=
  match selected_algorithms with
  | [] => Returned runtimes
  | alg :: rest =>
      res <- simulate (clock tick) (clock (S tick)) alg size ;;
      run_simulation clock (S (S tick)) rest size
        (runtimes ++ [(alg, elapsedTimeSeconds res)])
  end.

End Simulator.

(** ** Streamlit elements the handlers emit *)

Module St.

(** [go.Scatter(x=..., y=..., name=...)]; line styling is dropped. *)
Record Scatter : Type := {
  x : list Q;
  y : list Q;
  name : string
}.

Inductive element : Type :=
| plotly_chart (fig : list Scatter)
| success (body : string)
| error (body : string).

End St.

(** ** Theta Notation page: the bound construction (lines 160-188) *)

Module Theta.

Import St.
Local Open Scope Q_scope.

(** [a < b] on slider values. *)
Definition Qlt_bool (a b : Q) : bool :=
  (Qnum a * QDen b <? Qnum b * QDen a)%Z.

(** [np.linspace(start, stop, num)]: [num] evenly spaced samples, both ends
    included. *)
Definition linspace (start stop : Q) (num : Z) : list Q :=
  let step := (stop - start) / inject_Z (num - 1) in
  map (fun i => start + inject_Z i * step) (Py.range num).

(** The sliders [c1] in 0.1 .. 2.0 and [c2] in 1.0 .. 5.0, step 0.1. *)
Definition slider_c1 (c1 : Q) : Prop := 1 # 10 <= c1 <= 2.
Definition slider_c2 (c2 : Q) : Prop := 1 <= c2 <= 5.

(** [f = n**2 + 2*n + 1], elementwise on the sample vector. *)
Definition f (n : list Q) : list Q :=
  map (fun v => v ^ 2 + 2 * v + 1) n.

(** [c * n**2], elementwise. *)
Definition scaled_square (c : Q) (n : list Q) : list Q :=
  map (fun v => c * v ^ 2) n.

(** The body of the page after the two sliders, on a sample vector [n]:
    the guarded construction of the three traces, or the error message. *)
Definition composeBounds (c1 c2 : Q) (n : list Q) : list element :=
  if Qlt_bool c1 c2 then
    [ plotly_chart
        [ {| x := n; y := scaled_square c1 n; name := "Lower Bound" |};
          {| x := n; y := scaled_square c2 n; name := "Upper Bound" |};
          {| x := n; y := f n; name := "f(n)" |} ];
      success "c₁·n² ≤ f(n) ≤ c₂·n² → Θ(n²)" ]
  else
    [ error "Ensure c₁ < c₂" ].

(** The page itself samples [n = np.linspace(1, 50, 200)]. *)
Definition theta_page (c1 c2 : Q) : list element :=
  composeBounds c1 c2 (linspace 1 50 200).

(** The traces a page output carries. *)
Definition traces (out : list element) : list Scatter :=
  flat_map (fun e => match e with plotly_chart fig => fig | _ => [] end) out.

(** Pointwise [lower <= target <= upper]. *)
Definition enveloped (lower target upper : list Q) : Prop :=
  Forall2 Qle lower target /\ Forall2 Qle target upper.

End Theta.

(** ** Order of Growth page: the growth functions (lines 86-94) *)

Module Growth.

Local Open Scope R_scope.

Inductive ComplexityClass : Type :=
| Constant | Logarithmic | Linear | Linearithmic
| Quadratic | Cubic | ExponentialBounded.

(** [np.log2] and [np.exp2] *)
Definition log2 (n : R) : R := ln n / ln 2.
Definition exp2 (n : R) : R := Rpower 2 n.

(** The ceiling inside the ['O(2ⁿ)'] entry. *)
Definition CAP : R := 20.

(** The keys of [funcs], and ['n³'] of the Big-O page's [mapping]. *)
Definition label (c : ComplexityClass) : string :=
  match c with
  | Constant => "O(1)"
  | Logarithmic => "O(log n)"
  | Linear => "O(n)"
  | Linearithmic => "O(n log n)"
  | Quadratic => "O(n²)"
  | ExponentialBounded => "O(2ⁿ)"
  | Cubic => "n³"
  end.

(** The entries of [funcs]; the cubic one is [mapping['n³'] = n**3] of the
    Big-O page, the only place the script has it. *)
Definition funcs (c : ComplexityClass) (n : R) : R :=
  match c with
  | Constant => 1
  | Logarithmic => log2 n
  | Linear => n
  | Linearithmic => n * log2 n
  | Quadratic => n ^ 2
  | ExponentialBounded => exp2 (Rmin n CAP)
  | Cubic => n ^ 3
  end.

Definition evaluate : ComplexityClass -> R -> R := funcs.

(** [size * math.log2(size)] before [int] truncates it. *)
Definition size_log2 (size : Z) : R := IZR size * log2 (IZR size).

End Growth.

(** ** Complexity Calculator page: the Estimate Complexity handler
       (lines 329-336) *)

Module Estimator.

Import St Growth.

(** The default content of the text area. *)
Definition newline : string := String (ascii_of_nat 10) EmptyString.

Definition default_expr : string :=
  "for i in range(n):" ++ newline ++
  "    for j in range(n):" ++ newline ++
  "        pass".

(** The first example the page prints under the button:
    [# Single loop → O(n)]. *)
Definition single_loop_example : string :=
  "for i in range(n):" ++ newline ++
  "    pass".

(** What a press of the button emits; [expr] is the text area's content. *)
Definition estimate_complexity (expr : string) : list element :=
  [ success "Estimated Time Complexity: O(n²)" ].

(** Reading the class back off the message. *)
Fixpoint strip_prefix (p s : string) : option string :=
  match p, s with
  | EmptyString, _ => Some s
  | String a p', String b s' =>
      if Ascii.eqb a b then strip_prefix p' s' else None
  | String _ _, EmptyString => None
  end.

Definition classes : list ComplexityClass :=
  [Constant; Logarithmic; Linear; Linearithmic; Quadratic; Cubic;
   ExponentialBounded].

Definition class_of_label (l : string) : option ComplexityClass :=
  find (fun c => String.eqb (label c) l) classes.

Definition reported_class (out : list element) : option ComplexityClass :=
  match out with
  | [ success body ] =>
      match strip_prefix "Estimated Time Complexity: " body with
      | Some l => class_of_label l
      | None => None
      end
  | _ => None
  end.

Definition estimate (expr : string) : option ComplexityClass :=
  reported_class (estimate_complexity expr).

End Estimator.

(** ** Notions used in the statements *)

Module Notions.

Local Open Scope Z_scope.

(** 0 + 1 + ... + (m-1) *)
Fixpoint triangle (m : nat) : Z :=
  match m with
  | O => 0
  | S m' => triangle m' + Z.of_nat m'
  end.

(** [round(size * log2(size))], rounding to nearest, as the specification
    words the Merge count: the floor of [size * log2 size + 1/2], computed
    from the floor of twice the product. *)
Definition round_size_log2 (size : Z) : Z :=
  (Z.log2 (size ^ (2 * size)) + 1) / 2.

(** One floor-halving. *)
Definition halve (v : Z) : Z := v / 2.

(** The sample domain 10, 20, ..., 100. *)
Definition tens : list Q :=
  map (fun k => inject_Z (10 * k)) [1; 2; 3; 4; 5; 6; 7; 8; 9; 10].

End Notions.

(** ** Further built-ins: two-argument [range], [list.index], int64 array
       elements, dict lookup *)

Module Builtins.

Import Py.
Local Open Scope Z_scope.

(** [range(start, stop)], and [np.arange(start, stop)] on integers. *)
Definition range_from (start stop : Z) : list Z :=
  map (fun k => start + k) (range (stop - start)).

(** [repr] of an [int]. *)
Definition repr (z : Z) : string := NilZero.string_of_int (Z.to_int z).

(** [xs.index(x)], counting positions from [i]: the position of the first
    element equal to [x], [ValueError] when there is none. *)
Fixpoint index_from (xs : list Z) (x : Z) (i : Z) : outcome Z :=
  match xs with
  | [] => Raised (ValueError (String.append (repr x) " is not in list"))
  | y :: ys => if y =? x then Returned i else index_from ys x (i + 1)
  end.

Definition index (xs : list Z) (x : Z) : outcome Z := index_from xs x 0.

(** What an [int64] array element keeps of an integer result. *)
Definition wrap64 (z : Z) : Z := (z + 2 ^ 63) mod 2 ^ 64 - 2 ^ 63.

(** [d[k]] on a dict given by its items, keys compared with [eqb];
    [None] stands for [KeyError]. *)
Fixpoint lookup {K V : Type} (eqb : K -> K -> bool) (d : list (K * V)) (k : K)
  : option V :=
  match d with
  | [] => None
  | (k', v) :: d' => if eqb k' k then Some v else lookup eqb d' k
  end.

Definition getitem {V : Type} (d : list (string * V)) (k : string) : option V :=
  lookup String.eqb d k.

End Builtins.

(** ** Time Complexity page: reporting the runtimes (lines 231-236, 262-263)
       and the growth plot (lines 266-273) *)

Module Report.

Import Simulator Builtins.





(** The samples of the growth plot: [np.linspace(10, size, 200)]. *)
Definition plot_samples (size : Z) : list Q :=
  Theta.linspace 10 (inject_Z size) 200.

(** The four curves drawn on the logarithmic axis, in the order of the
    script: [n], [n * np.log2(n)], [n**2], [np.log2(n)]. *)
Definition plot_curves : list Growth.ComplexityClass :=
  [Growth.Linear; Growth.Linearithmic; Growth.Quadratic; Growth.Logarithmic].

Definition plot_values (c : Growth.ComplexityClass) (size : Z) : list R :=
  map (fun v => Growth.funcs c (Q2R v)) (plot_samples size).

End Report.

(** ** Analysis Importance page: the two metrics (lines 64-69) *)

Module Importance.

Local Open Scope R_scope.

(** The "Dataset Size" slider: [st.slider(_, 1000, 1000000, 100000, ...)]. *)
Definition slider_size (size : Z) : Prop := (1000 <= size <= 1000000)%Z.

Definition lin (size : Z) : R := IZR size / 2.
Definition bin (size : Z) : R := Growth.log2 (IZR size).

(** [int(lin)], shown by the first metric. *)
Definition int_lin (size : Z) : Z := (size / 2)%Z.

(** [lin / bin], shown by the success line. *)
Definition speedup (size : Z) : R := lin size / bin size.

End Importance.

(** ** Algorithm Cases page (lines 109-131) *)

Module Cases.

Import Py Builtins St.
Local Open Scope Z_scope.

(** The "Array Size" slider and the "Target Element" number input. *)
Definition slider_size (size : Z) : Prop := 5 <= size <= 100.
Definition target_input (size target : Z) : Prop := 1 <= target <= size.

Definition arr (size : Z) : list Z := range_from 1 (size + 1).

(** [pos = arr.index(target) + 1] *)
Definition pos (size target : Z) : outcome Z :=
  i <- index (arr size) target ;; Returned (i + 1).

(** The four metrics: best, your case, average, worst. *)
Record Metrics : Type := {
  best : Z;
  your : Z;
  average : Q;
  worst : Z
}.

Definition metrics (size target : Z) : outcome Metrics :=
  p <- pos size target ;;
  Returned {| best := 1; your := p;
              average := (inject_Z (size + 1) / 2)%Q; worst := size |}.

(** The chart: [n = np.arange(1, 51)] and the three traces. *)
Definition n : list Z := range_from 1 51.

Definition chart : list Scatter :=
  let xs := map inject_Z n in
  [ {| x := xs; y := map (fun _ => 1%Q) n; name := "Best O(1)" |};
    {| x := xs; y := map (fun v => ((inject_Z v + 1) / 2)%Q) n;
       name := "Average O(n)" |};
    {| x := xs; y := xs; name := "Worst O(n)" |} ].

End Cases.

(** ** Big-O Notation page (lines 141-158) *)

Module BigO.

Import Builtins.
Local Open Scope Z_scope.

(** Options of the "Functions to Compare" multiselect. *)
Definition options : list string := ["n"; "n²"; "2n²"; "n³"]%string.

(** The "Max n" slider: [st.slider(_, 10, 500, 100)]. *)
Definition slider_n_max (n_max : Z) : Prop := 10 <= n_max <= 500.

(** [n ** k] and [c * n] on an int64 array. *)
Definition array_pow (n : list Z) (k : Z) : list Z :=
  map (fun v => wrap64 (v ^ k)) n.
Definition array_scale (c : Z) (n : list Z) : list Z :=
  map (fun v => wrap64 (c * v)) n.

Definition mapping (n : list Z) : list (string * list Z) :=
  [ ("n", n);
    ("n²", array_pow n 2);
    ("2n²", array_scale 2 (array_pow n 2));
    ("n³", array_pow n 3) ]%string.

Record Trace : Type := {
  x : list Z;
  y : list Z;
  name : string
}.

(** [for f in funcs: fig.add_trace(go.Scatter(x=n, y=mapping[f], name=f))] *)
Fixpoint add_traces (n : list Z) (funcs : list string) : option (list Trace) :=
  match funcs with
  | [] => Some []
  | f :: rest =>
      match getitem (mapping n) f with
      | None => None
      | Some ys =>
          option_map (cons {| x := n; y := ys; name := f |})
                     (add_traces n rest)
      end
  end.

(** The page after its two widgets: the list of charts it draws, none when
    the selection is empty. *)
Definition page (funcs : list string) (n_max : Z) : option (list (list Trace)) :=
  match funcs with
  | [] => Some []
  | _ :: _ =>
      let n := range_from 1 (n_max + 1) in
      option_map (fun fig => [fig]) (add_traces n funcs)
  end.

End BigO.

(** ** Space Complexity page (lines 301-312) *)

Module Space.

Import Builtins.
Local Open Scope Z_scope.

(** Options of the "Algorithm" selectbox. *)
Definition options : list string :=
  ["Iterative Fibonacci"; "Recursive Fibonacci"; "Merge Sort";
   "Bubble Sort"]%string.

Definition usage : list (string * Z) :=
  [ ("Iterative Fibonacci", 1);
    ("Recursive Fibonacci", 100);
    ("Merge Sort", 100);
    ("Bubble Sort", 1) ]%string.

(** The metric and the label the page shows for [alg]. *)
Definition page (alg : string) : option (Z * string) :=
  match getitem usage alg with
  | None => None
  | Some u => Some (u, if 1 <? u then "O(n)"%string else "O(1)"%string)
  end.

End Space.

(** * Properties *)

(** ** Counting loops *)

Section Loops.

Import Py Notions.
Local Open Scope Z_scope.

Lemma range_length (n : Z) : Z.of_nat (List.length (range n)) = Z.max 0 n.
Proof.
  unfold range. rewrite length_map, length_seq. lia.
Qed.

Lemma range_nonpos (n : Z) : n <= 0 -> range n = [].
Proof.
  intros H. unfold range.
  replace (Z.to_nat n) with 0%nat by lia. reflexivity.
Qed.

Lemma range_succ (m : nat) :
  range (Z.of_nat (S m)) = range (Z.of_nat m) ++ [Z.of_nat m].
Proof.
  unfold range. rewrite !Nat2Z.id, seq_S, map_app. reflexivity.
Qed.

(** A loop whose body is [total += 1] adds the number of its iterations. *)
Lemma count_loop {A : Type} (xs : list A) (total : Z) :
  for_in xs (fun total _ => total + 1) total = total + Z.of_nat (List.length xs).
Proof.
  unfold for_in. revert total.
  induction xs as [|a xs IH]; intros total; simpl.
  - lia.
  - rewrite IH. lia.
Qed.

Lemma count_range (n total : Z) :
  for_in (range n) (fun total _ => total + 1) total = total + Z.max 0 n.
Proof.
  rewrite count_loop, range_length. reflexivity.
Qed.

Lemma triangle_closed (m : nat) :
  2 * triangle m = Z.of_nat m * (Z.of_nat m - 1).
Proof.
  induction m as [|m IH]; [reflexivity|].
  cbn [triangle]. rewrite Nat2Z.inj_succ. nia.
Qed.

(** The inner loop of the Bubble branch, for a fixed [i]. *)
Lemma bubble_inner (m : nat) (i total : Z) :
  for_in (range (Z.of_nat m)) (fun total j => total + (i + j)) total
  = total + Z.of_nat m * i + triangle m.
Proof.
  induction m as [|m IH].
  - simpl. lia.
  - rewrite range_succ. unfold for_in in *.
    rewrite fold_left_app, IH. cbn [fold_left triangle].
    rewrite Nat2Z.inj_succ. lia.
Qed.

(** The outer loop after its first [k] iterations. *)
Lemma bubble_outer (m k : nat) (total : Z) :
  for_in (range (Z.of_nat k)) (fun total i =>
    for_in (range (Z.of_nat m)) (fun total j => total + (i + j)) total) total
  = total + Z.of_nat m * triangle k + Z.of_nat k * triangle m.
Proof.
  induction k as [|k IH].
  - simpl. lia.
  - rewrite range_succ. unfold for_in at 1. rewrite fold_left_app.
    fold (@for_in Z Z). unfold for_in at 1 in IH. rewrite IH.
    cbn [fold_left triangle]. rewrite bubble_inner, Nat2Z.inj_succ. lia.
Qed.

Lemma bubble_total (size : Z) :
  0 <= size ->
  for_in (range size) (fun total i =>
    for_in (range size) (fun total j => total + (i + j)) total) 0
  = size * size * (size - 1).
Proof.
  intros H.
  destruct (Z_of_nat_complete size H) as [m ->].
  rewrite bubble_outer.
  pose proof (triangle_closed m) as T. nia.
Qed.

End Loops.

(** ** The halving loop *)

Section Halving.

Import Py Simulator Notions.
Local Open Scope Z_scope.

Lemma halving_loop_unfold (val total : Z) :
  halving_loop val total =
  if halving_guard (val, total) then
    let s := halving_body (val, total) in halving_loop (fst s) (snd s)
  else (val, total).
Proof.
  rewrite halving_loop_equation_1.
  unfold halving_guard, halving_body; cbn [fst snd].
  destruct (Z_lt_dec 1 val) as [Hlt|Hge]; cbn.
  - apply Z.ltb_lt in Hlt. rewrite Hlt. reflexivity.
  - apply Z.ltb_nlt in Hge. rewrite Hge. reflexivity.
Qed.

Lemma log2_halve (val : Z) : 1 < val -> Z.log2 (val / 2) = Z.log2 val - 1.
Proof.
  intros H.
  assert (1 <= Z.log2 val).
  { change 1 with (Z.log2 2) at 1. apply Z.log2_le_mono. lia. }
  change 2 with (2 ^ 1) at 1.
  rewrite <- Z.shiftr_div_pow2 by lia.
  rewrite Z.log2_shiftr by lia. lia.
Qed.

(** Induction along the loop: to prove [P val], assume [P (val // 2)]
    whenever the guard lets the body run. *)
Lemma halving_ind (P : Z -> Prop) :
  (forall val, (1 < val -> P (val / 2)) -> P val) ->
  forall val, P val.
Proof.
  intros step val.
  destruct (Z.le_gt_cases val 1) as [Hle|Hlt].
  - apply step. lia.
  - assert (Hpos : 0 <= val) by lia. clear Hlt.
    revert val Hpos. apply (Z_lt_induction P).
    intros val IH. apply step. intros Hlt. apply IH.
    split; [apply Z.div_pos; lia | apply Z.div_lt; lia].
Qed.

Lemma halve_ge_1 (val : Z) : 1 < val -> 1 <= val / 2.
Proof.
  intros H. apply Z.div_le_lower_bound; lia.
Qed.

Lemma log2_unhalve (val : Z) :
  1 < val -> Z.log2 val = Z.succ (Z.log2 (val / 2)).
Proof.
  intros H. rewrite log2_halve by assumption. lia.
Qed.

Lemma halving_loop_spec (val : Z) :
  forall total, 1 <= val ->
  halving_loop val total = (1, total + Z.log2 val).
Proof.
  induction val as [val IH] using halving_ind. intros total Hpos.
  rewrite halving_loop_unfold.
  unfold halving_guard, halving_body; cbn [fst snd].
  destruct (Z.ltb_spec 1 val) as [Hlt|Hle].
  - cbn zeta. rewrite IH by auto using halve_ge_1.
    rewrite (log2_unhalve val Hlt). f_equal. lia.
  - replace val with 1 by lia. rewrite Z.add_0_r. reflexivity.
Qed.

Lemma halving_loop_idle (val total : Z) :
  val <= 1 -> halving_loop val total = (val, total).
Proof.
  intros H. rewrite halving_loop_unfold.
  unfold halving_guard; cbn [fst].
  destruct (Z.ltb_spec 1 val); [lia | reflexivity].
Qed.

Lemma while_run_spec (val : Z) :
  forall total, 1 <= val ->
  while_run (val, total) (Z.to_nat (Z.log2 val)) (1, total + Z.log2 val).
Proof.
  induction val as [val IH] using halving_ind. intros total Hpos.
  destruct (Z.ltb_spec 1 val) as [Hlt|Hle].
  - rewrite (log2_unhalve val Hlt), Z2Nat.inj_succ by apply Z.log2_nonneg.
    apply run_iter.
    + unfold halving_guard; cbn [fst]. apply Z.ltb_lt. assumption.
    + unfold halving_body; cbn [fst snd].
      replace (total + Z.succ (Z.log2 (val / 2)))
        with (total + 1 + Z.log2 (val / 2)) by lia.
      apply IH; auto using halve_ge_1.
  - replace val with 1 by lia. rewrite Z.add_0_r.
    apply run_exit. reflexivity.
Qed.

(** The loop is a deterministic program: the iteration count and the exit
    state are determined by the entry state. *)
Lemma while_run_functional s k1 s1 :
  while_run s k1 s1 -> forall k2 s2, while_run s k2 s2 -> k1 = k2 /\ s1 = s2.
Proof.
  induction 1 as [s Hg | s k s' Hg Hrun IH]; intros k2 s2 H2;
    inversion H2 as [? Hg2 | ? k' ? Hg2 Hrun2]; subst; try congruence.
  - split; reflexivity.
  - destruct (IH _ _ Hrun2) as [-> ->]. split; reflexivity.
Qed.

Lemma while_run_halving_loop s k s' :
  while_run s k s' -> halving_loop (fst s) (snd s) = s'.
Proof.
  induction 1 as [s Hg | s k s' Hg Hrun IH].
  - rewrite halving_loop_unfold. rewrite <- surjective_pairing, Hg.
    reflexivity.
  - rewrite halving_loop_unfold. rewrite <- surjective_pairing, Hg.
    exact IH.
Qed.

(** Successive floor-halvings of [n]. *)
Lemma halvings_reach_one (val : Z) :
  1 <= val ->
  Nat.iter (Z.to_nat (Z.log2 val)) halve val = 1.
Proof.
  induction val as [val IH] using halving_ind. intros Hpos.
  destruct (Z.ltb_spec 1 val) as [Hlt|Hle].
  - rewrite (log2_unhalve val Hlt), Z2Nat.inj_succ by apply Z.log2_nonneg.
    rewrite Nat.iter_succ_r. apply IH; auto using halve_ge_1.
  - replace val with 1 by lia. reflexivity.
Qed.

End Halving.

(** ** Logarithms: the real functions and their integer truncation *)

Section Logarithms.

Import Growth.
Local Open Scope R_scope.

Lemma ln2_pos : 0 < ln 2.
Proof.
  pose proof ln_lt_2. lra.
Qed.

Lemma ln_le (a b : R) : 0 < a -> a <= b -> ln a <= ln b.
Proof.
  intros Ha [Hlt | ->].
  - left. apply ln_increasing; assumption.
  - right. reflexivity.
Qed.

Lemma ln_nonneg (a : R) : 1 <= a -> 0 <= ln a.
Proof.
  intros H. rewrite <- ln_1. apply ln_le; lra.
Qed.

Lemma log2_nonneg (a : R) : 1 <= a -> 0 <= log2 a.
Proof.
  intros H. unfold log2.
  apply Rmult_le_pos; [apply ln_nonneg; assumption|].
  left. apply Rinv_0_lt_compat, ln2_pos.
Qed.


(** [ln] of an integer power, with integer exponent. *)
Lemma ln_Zpow (b e : Z) :
  (0 < b)%Z -> (0 <= e)%Z -> ln (IZR (b ^ e)) = IZR e * ln (IZR b).
Proof.
  intros Hb He.
  rewrite <- (Z2Nat.id e He) at 1.
  rewrite <- pow_IZR, ln_pow by (apply IZR_lt; assumption).
  rewrite INR_IZR_INZ, Z2Nat.id by assumption. reflexivity.
Qed.

(** [Z.log2 (b ^ e)] is the floor of [e * log2 b]. *)
Lemma Zlog2_pow_floor (b e : Z) :
  (0 < b)%Z -> (0 <= e)%Z ->
  IZR (Z.log2 (b ^ e)) <= IZR e * log2 (IZR b) < IZR (Z.log2 (b ^ e)) + 1.
Proof.
  intros Hb He.
  assert (Hp : (0 < b ^ e)%Z) by (apply Z.pow_pos_nonneg; assumption).
  pose proof (Z.log2_spec _ Hp) as [Hlo Hhi].
  pose proof (Z.log2_nonneg (b ^ e)) as Hk.
  set (k := Z.log2 (b ^ e)) in *.
  assert (Hlo' : IZR k * ln 2 <= IZR e * ln (IZR b)).
  { rewrite <- !ln_Zpow by lia.
    apply ln_le; [apply IZR_lt, Z.pow_pos_nonneg; lia | apply IZR_le, Hlo]. }
  assert (Hhi' : IZR e * ln (IZR b) < (IZR k + 1) * ln 2).
  { rewrite <- plus_IZR, <- !ln_Zpow by lia.
    apply ln_increasing; [apply IZR_lt, Hp | apply IZR_lt, Hhi]. }
  pose proof ln2_pos as L.
  assert (E : IZR e * log2 (IZR b) = IZR e * ln (IZR b) * / ln 2).
  { unfold log2. field. lra. }
  rewrite E. split.
  - apply (Rmult_le_reg_r (ln 2)); [assumption|].
    rewrite Rmult_assoc, Rinv_l by lra. lra.
  - apply (Rmult_lt_reg_r (ln 2)); [assumption|].
    rewrite Rmult_assoc, Rinv_l by lra. lra.
Qed.

(** The integer that [Py.int_size_log2] returns is [int(size * log2(size))]:
    the integer part of the real product. *)
Lemma int_size_log2_is_floor (size : Z) :
  (1 <= size)%Z ->
  exists bound,
    Py.int_size_log2 size = Py.Returned bound /\
    IZR bound <= size_log2 size < IZR bound + 1.
Proof.
  intros H. exists (Z.log2 (size ^ size)). split.
  - unfold Py.int_size_log2.
    destruct (Z.leb_spec size 0); [lia | reflexivity].
  - unfold size_log2. apply Zlog2_pow_floor; lia.
Qed.

End Logarithms.

(** ** The Run Simulation handler *)

Section Simulation.

Import Py Simulator Notions.
Local Open Scope Z_scope.

Lemma halvings_above_one (val : Z) :
  forall j, (j < Z.to_nat (Z.log2 val))%nat ->
  1 < Nat.iter j halve val.
Proof.
  induction val as [val IH] using halving_ind. intros j Hj.
  destruct (Z.ltb_spec 1 val) as [Hlt|Hle].
  - destruct j as [|j]; [exact Hlt|].
    rewrite Nat.iter_succ_r. apply IH; [assumption|].
    rewrite (log2_unhalve val Hlt), Z2Nat.inj_succ in Hj
      by apply Z.log2_nonneg.
    lia.
  - assert (Z.log2 val <= 0).
    { destruct (Z.le_gt_cases val 0) as [Hn|Hp].
      - rewrite Z.log2_nonpos by assumption. lia.
      - replace val with 1 by lia. reflexivity. }
    lia.
Qed.

Lemma run_branch_Linear (size : Z) :
  run_branch Linear size = Returned (Z.max 0 size).
Proof.
  unfold run_branch. rewrite count_range. reflexivity.
Qed.

Lemma run_branch_Binary (size : Z) :
  1 <= size -> run_branch Binary size = Returned (Z.log2 size).
Proof.
  intros H. unfold run_branch. rewrite halving_loop_spec by assumption.
  reflexivity.
Qed.

Lemma run_branch_Binary_idle (size : Z) :
  size <= 1 -> run_branch Binary size = Returned 0.
Proof.
  intros H. unfold run_branch. rewrite halving_loop_idle by assumption.
  reflexivity.
Qed.

Lemma run_branch_Bubble (size : Z) :
  0 <= size -> run_branch Bubble size = Returned (size * size * (size - 1)).
Proof.
  intros H. unfold run_branch. rewrite bubble_total by assumption.
  reflexivity.
Qed.

Lemma run_branch_Bubble_idle (size : Z) :
  size <= 0 -> run_branch Bubble size = Returned 0.
Proof.
  intros H. unfold run_branch. rewrite range_nonpos by assumption.
  reflexivity.
Qed.

Lemma run_branch_Merge (size : Z) :
  1 <= size -> run_branch Merge size = Returned (Z.log2 (size ^ size)).
Proof.
  intros H. unfold run_branch, int_size_log2.
  destruct (Z.leb_spec size 0); [lia|]. cbn [bind].
  rewrite count_range.
  pose proof (Z.log2_nonneg (size ^ size)). f_equal. lia.
Qed.

Lemma run_branch_Merge_raises (size : Z) :
  size <= 0 -> run_branch Merge size = Raised (ValueError "math domain error").
Proof.
  intros H. unfold run_branch, int_size_log2.
  destruct (Z.leb_spec size 0); [reflexivity | lia].
Qed.

(** The count of a run is the branch's [total], whatever the clock says. *)
Lemma count_of_simulate (start stop : Q) (alg : Algorithm) (size : Z) :
  count_of (simulate start stop alg size) = run_branch alg size.
Proof.
  unfold count_of, simulate.
  destruct (run_branch alg size); reflexivity.
Qed.

(** On a positive size every branch runs to its end. *)
Lemma run_branch_returns (alg : Algorithm) (size : Z) :
  1 <= size -> exists total, run_branch alg size = Returned total.
Proof.
  intros H. destruct alg.
  - eexists. apply run_branch_Linear.
  - eexists. apply run_branch_Binary. assumption.
  - eexists. apply run_branch_Bubble. lia.
  - eexists. apply run_branch_Merge. assumption.
Qed.

(** On a positive size the whole handler runs through and records one
    runtime per selected algorithm, in the order of the selection. *)
Lemma run_simulation_returns (clock : nat -> Q) (size : Z) :
  1 <= size ->
  forall selected_algorithms tick runtimes,
  exists filled,
    run_simulation clock tick selected_algorithms size runtimes
      = Returned filled /\
    map fst filled = (map fst runtimes ++ selected_algorithms)%list.
Proof.
  intros H selected_algorithms.
  induction selected_algorithms as [|alg rest IH]; intros tick runtimes.
  - exists runtimes. split; [reflexivity|]. rewrite app_nil_r. reflexivity.
  - cbn [run_simulation]. unfold simulate.
    destruct (run_branch_returns alg size H) as [total E]. rewrite E.
    cbn [bind elapsedTimeSeconds].
    destruct (IH (S (S tick)) (runtimes ++ [(alg, clock (S tick) - clock tick)%Q])%list)
      as [filled [Hrun Hkeys]].
    exists filled. split; [exact Hrun|].
    rewrite Hkeys, map_app, <- app_assoc. reflexivity.
Qed.

End Simulation.

(** ** Rounding against truncation in the Merge branch *)

Section Rounding.

Import Py Simulator Notions Growth.

(** [round_size_log2] is the integer nearest to [size * log2 size]. *)
Lemma round_size_log2_nearest (size : Z) :
  (1 <= size)%Z ->
  (IZR (round_size_log2 size) - / 2 <= size_log2 size
   < IZR (round_size_log2 size) + / 2)%R.
Proof.
  intros H. unfold round_size_log2, size_log2.
  pose proof (Zlog2_pow_floor size (2 * size) ltac:(lia) ltac:(lia)) as F.
  set (m := Z.log2 (size ^ (2 * size))) in *.
  rewrite mult_IZR, Rmult_assoc in F.
  set (v := (IZR size * log2 (IZR size))%R) in *.
  destruct (Z.Even_or_Odd m) as [[q Hq]|[q Hq]]; rewrite Hq in *.
  - replace ((2 * q + 1) / 2)%Z with q
      by (apply (Z.div_unique _ 2 q 1); lia).
    rewrite mult_IZR in F. lra.
  - replace ((2 * q + 1 + 1) / 2)%Z with (q + 1)%Z
      by (apply (Z.div_unique _ 2 (q + 1) 0); lia).
    rewrite !plus_IZR, mult_IZR in F. rewrite plus_IZR. lra.
Qed.

Local Open Scope Z_scope.




End Rounding.

(** ** Counts of the Binary, Bubble and Linear branches *)

Section Counts.

Import Py Simulator Notions.
Local Open Scope Z_scope.

(** C4: for every positive size the Binary run counts the floor-halvings
    that take the size down to 1, which is the floor of its base-2
    logarithm; at size 1024 the count is 10. *)
Theorem binary_count_is_floor_log2 (start stop : Q) (n : Z) :
  1 <= n ->
  count_of (simulate start stop Binary n) = Returned (Z.log2 n) /\
  Nat.iter (Z.to_nat (Z.log2 n)) halve n = 1 /\
  (forall j, (j < Z.to_nat (Z.log2 n))%nat -> 1 < Nat.iter j halve n) /\
  (IZR (Z.log2 n) <= Growth.log2 (IZR n) < IZR (Z.log2 n) + 1)%R /\
  count_of (simulate start stop Binary 1024) = Returned 10.
Proof.
  intros H. rewrite !count_of_simulate.
  split; [apply run_branch_Binary; assumption|].
  split; [apply halvings_reach_one; assumption|].
  split; [apply halvings_above_one|].
  split.
  - pose proof (Zlog2_pow_floor n 1 ltac:(lia) ltac:(lia)) as F.
    rewrite Z.pow_1_r, Rmult_1_l in F. exact F.
  - vm_compute. reflexivity.
Qed.

Lemma binary_count_is_floor_log2_witness :
  1 <= 1024 /\
  count_of (simulate 0 1 Binary 1024) = Returned (Z.log2 1024) /\
  Nat.iter (Z.to_nat (Z.log2 1024)) halve 1024 = 1 /\
  (forall j, (j < Z.to_nat (Z.log2 1024))%nat -> 1 < Nat.iter j halve 1024) /\
  (IZR (Z.log2 1024) <= Growth.log2 (IZR 1024) < IZR (Z.log2 1024) + 1)%R /\
  count_of (simulate 0 1 Binary 1024) = Returned 10.
Proof.
  split; [lia | apply (binary_count_is_floor_log2 0 1 1024); lia].
Defined.

(** C10: entered with any positive [val], the halving loop leaves after
    finitely many iterations (no more than [val], in fact [floor(log2 val)]),
    with the guard false; no other run exists, and the loop function, which
    has no iteration bound of its own, returns that exit state. *)
Theorem halving_loop_terminates (val total : Z) :
  1 <= val ->
  exists k final,
    while_run (val, total) k final /\
    halving_guard final = false /\
    (k <= Z.to_nat val)%nat /\
    halving_loop val total = final /\
    (forall k' final', while_run (val, total) k' final' ->
                       k' = k /\ final' = final).
Proof.
  intros H.
  exists (Z.to_nat (Z.log2 val)), (1, total + Z.log2 val).
  pose proof (while_run_spec val total H) as Hrun.
  split; [exact Hrun|].
  split; [reflexivity|].
  split; [pose proof (Z.log2_le_lin val); pose proof (Z.log2_nonneg val); lia|].
  split; [apply halving_loop_spec; assumption|].
  intros k' final' Hrun'.
  destruct (while_run_functional _ _ _ Hrun _ _ Hrun') as [-> ->].
  split; reflexivity.
Qed.

Lemma halving_loop_terminates_witness :
  1 <= 5000 /\
  exists k final,
    while_run (5000, 0) k final /\
    halving_guard final = false /\
    (k <= Z.to_nat 5000)%nat /\
    halving_loop 5000 0 = final /\
    (forall k' final', while_run (5000, 0) k' final' ->
                       k' = k /\ final' = final).
Proof.
  split; [lia | apply (halving_loop_terminates 5000 0); lia].
Defined.




(** The two clock readings do reach the result: the elapsed time differs
    where they differ. *)
Lemma elapsed_follows_clock :
  exists r1 r2,
    simulate 0 1 Bubble 500 = Returned r1 /\
    simulate 0 2 Bubble 500 = Returned r2 /\
    operationCount r1 = operationCount r2 /\
    ~ (elapsedTimeSeconds r1 == elapsedTimeSeconds r2)%Q.
Proof.
  unfold simulate. rewrite run_branch_Bubble by lia. cbn [bind].
  do 2 eexists. split; [reflexivity|]. split; [reflexivity|].
  split; [reflexivity|]. cbn. discriminate.
Qed.



(** C6, as stated, fails: the handler has no size check, and the Linear
    branch on size 0 or -5 runs an empty loop and returns the count 0. *)
Lemma linear_nonpositive_size_returns :
  simulate 0 1 Linear 0
    = Returned {| algorithmId := Linear; inputSize := 0;
                  operationCount := 0; elapsedTimeSeconds := 1 - 0 |} /\
  simulate 0 1 Linear (-5)
    = Returned {| algorithmId := Linear; inputSize := -5;
                  operationCount := 0; elapsedTimeSeconds := 1 - 0 |}.
Proof.
  split; reflexivity.
Qed.

(** C6 (amended): the handler does not validate the size.  The slider only
    offers sizes from 100 to 5000, and on those every algorithm returns a
    result.  Given a size [<= 0], Linear, Binary and Bubble return the count
    0; Merge alone stops, with the [ValueError] of [math.log2]. *)
Theorem simulate_has_no_size_check (start stop : Q) (alg : Algorithm)
  (size : Z) :
  (slider_size size ->
   exists res, simulate start stop alg size = Returned res) /\
  (size <= 0 -> alg <> Merge ->
   count_of (simulate start stop alg size) = Returned 0) /\
  (size <= 0 ->
   simulate start stop Merge size = Raised (ValueError "math domain error")).
Proof.
  split; [|split].
  - intros [Hlo Hhi]. unfold size_min in Hlo.
    destruct (run_branch_returns alg size ltac:(lia)) as [total E].
    unfold simulate. rewrite E. cbn [bind]. eexists. reflexivity.
  - intros H Halg. rewrite count_of_simulate. destruct alg.
    + rewrite run_branch_Linear. f_equal. lia.
    + apply run_branch_Binary_idle. lia.
    + apply run_branch_Bubble_idle. assumption.
    + congruence.
  - intros H. unfold simulate.
    rewrite run_branch_Merge_raises by assumption. reflexivity.
Qed.

Lemma simulate_has_no_size_check_witness :
  slider_size 1000 /\ -5 <= 0 /\ Linear <> Merge /\
  (exists res, simulate 0 1 Linear 1000 = Returned res) /\
  count_of (simulate 0 1 Linear (-5)) = Returned 0 /\
  simulate 0 1 Merge (-5) = Raised (ValueError "math domain error").
Proof.
  assert (S1 : slider_size 1000) by (unfold slider_size, size_min, size_max; lia).
  assert (S2 : -5 <= 0) by lia.
  assert (S3 : Linear <> Merge) by discriminate.
  split; [exact S1|]. split; [exact S2|]. split; [exact S3|].
  split; [exact (proj1 (simulate_has_no_size_check 0 1 Linear 1000) S1)|].
  split.
  - exact (proj1 (proj2 (simulate_has_no_size_check 0 1 Linear (-5))) S2 S3).
  - exact (proj2 (proj2 (simulate_has_no_size_check 0 1 Linear (-5))) S2).
Defined.

End Counts.

(** ** The Theta page *)

Section ThetaBounds.

Import St Theta Notions.
Local Open Scope Q_scope.

Lemma Qlt_bool_iff (a b : Q) : Qlt_bool a b = true <-> a < b.
Proof.
  unfold Qlt_bool, Qlt. apply Z.ltb_lt.
Qed.

Lemma Qlt_bool_false_iff (a b : Q) : Qlt_bool a b = false <-> b <= a.
Proof.
  unfold Qlt_bool, Qle. rewrite Z.ltb_ge. reflexivity.
Qed.

(** From 3 on, the lower-order terms of [f] are dominated. *)
Lemma envelope_point (v : Q) :
  3 <= v -> (1 # 2) * v ^ 2 <= v ^ 2 + 2 * v + 1 /\ v ^ 2 + 2 * v + 1 <= 2 * v ^ 2.
Proof.
  intros H. simpl. split; nra.
Qed.

Lemma envelope_from_3 (n : list Q) :
  Forall (fun v => 3 <= v) n ->
  enveloped (scaled_square (1 # 2) n) (f n) (scaled_square 2 n).
Proof.
  unfold enveloped, scaled_square, f.
  induction 1 as [|v n Hv Hn [IHl IHu]]; cbn [map].
  - split; constructor.
  - destruct (envelope_point v Hv). split; constructor; assumption.
Qed.

Lemma tens_from_3 : Forall (fun v => 3 <= v) tens.
Proof.
  unfold tens. cbn [map].
  repeat constructor; unfold Qle; cbn; lia.
Qed.

(** C7: with constants 0.5 and 2.0 on the domain 10, 20, ..., 100 the page
    body builds three traces, lower [0.5 n^2], upper [2.0 n^2] and target
    [n^2 + 2n + 1], and at every sample lower <= target <= upper. *)
Theorem theta_envelope_on_tens :
  exists lower upper target msg,
    composeBounds (1 # 2) 2 tens
      = [plotly_chart [lower; upper; target]; success msg] /\
    x lower = tens /\ x upper = tens /\ x target = tens /\
    y lower = map (fun v => (1 # 2) * v ^ 2) tens /\
    y upper = map (fun v => 2 * v ^ 2) tens /\
    y target = map (fun v => v ^ 2 + 2 * v + 1) tens /\
    enveloped (y lower) (y target) (y upper).
Proof.
  do 4 eexists. split; [reflexivity|].
  cbn [x y]. repeat (split; [reflexivity|]).
  apply envelope_from_3, tens_from_3.
Qed.

(** On the page's own samples the upper bound is not yet above the target
    at the first one, [n = 1]. *)
Lemma first_sample_not_enveloped :
  hd_error (linspace 1 50 200) = Some (199 # 199) /\
  ~ (199 # 199) ^ 2 + 2 * (199 # 199) + 1 <= 2 * (199 # 199) ^ 2.
Proof.
  split; [reflexivity|]. unfold Qle. cbn. lia.
Qed.

(** C8: when [c1 >= c2] the page body emits the error and nothing else, so
    no trace at all; when [c1 < c2] it emits the chart with the three
    complete traces and the success line. *)
Theorem composeBounds_all_or_error (c1 c2 : Q) (n : list Q) :
  (c2 <= c1 ->
   composeBounds c1 c2 n = [error "Ensure c₁ < c₂"] /\
   traces (composeBounds c1 c2 n) = []) /\
  (c1 < c2 ->
   exists msg,
     composeBounds c1 c2 n
       = [ plotly_chart
             [ {| x := n; y := scaled_square c1 n; name := "Lower Bound" |};
               {| x := n; y := scaled_square c2 n; name := "Upper Bound" |};
               {| x := n; y := f n; name := "f(n)" |} ];
           success msg ] /\
     List.length (scaled_square c1 n) = List.length n /\
     List.length (scaled_square c2 n) = List.length n /\
     List.length (f n) = List.length n).
Proof.
  unfold composeBounds. split.
  - intros H. apply Qlt_bool_false_iff in H. rewrite H.
    split; reflexivity.
  - intros H. apply Qlt_bool_iff in H. rewrite H.
    eexists. split; [reflexivity|].
    unfold scaled_square, f. rewrite !length_map. repeat split.
Qed.

Lemma composeBounds_all_or_error_witness :
  2 <= 2 /\ (1 # 2) < 2 /\
  (composeBounds 2 2 tens = [error "Ensure c₁ < c₂"] /\
   traces (composeBounds 2 2 tens) = []) /\
  (composeBounds 2 (1 # 2) tens = [error "Ensure c₁ < c₂"] /\
   traces (composeBounds 2 (1 # 2) tens) = []) /\
  exists msg,
    composeBounds (1 # 2) 2 tens
      = [ plotly_chart
            [ {| x := tens; y := scaled_square (1 # 2) tens;
                 name := "Lower Bound" |};
              {| x := tens; y := scaled_square 2 tens;
                 name := "Upper Bound" |};
              {| x := tens; y := f tens; name := "f(n)" |} ];
          success msg ] /\
    List.length (scaled_square (1 # 2) tens) = List.length tens /\
    List.length (scaled_square 2 tens) = List.length tens /\
    List.length (f tens) = List.length tens.
Proof.
  assert (H1 : 2 <= 2) by (unfold Qle; cbn; lia).
  assert (H2 : (1 # 2) < 2) by reflexivity.
  assert (H3 : (1 # 2) <= 2) by (unfold Qle; cbn; lia).
  split; [exact H1|]. split; [exact H2|].
  split; [exact (proj1 (composeBounds_all_or_error 2 2 tens) H1)|].
  split; [exact (proj1 (composeBounds_all_or_error 2 (1 # 2) tens) H3)|].
  exact (proj2 (composeBounds_all_or_error (1 # 2) 2 tens) H2).
Defined.

End ThetaBounds.

(** ** The growth functions *)

Section GrowthFunctions.

Import Growth.
Local Open Scope R_scope.

(** Past the ceiling the exponential entry is constant. *)
Lemma exponential_clamped (n : R) :
  CAP <= n -> evaluate ExponentialBounded n = 2 ^ 20.
Proof.
  intros H. unfold evaluate, funcs, exp2, CAP in *.
  rewrite Rmin_right by assumption.
  replace 20 with (INR 20) at 1 by (simpl; lra).
  apply Rpower_pow. lra.
Qed.



End GrowthFunctions.

(** ** The Estimate Complexity handler *)

Section Estimation.

Import St Growth Estimator.

(** C1: whatever the text area holds, a press of the button reports
    [O(n²)], the quadratic class. *)
Theorem estimate_always_quadratic (expr : string) :
  estimate_complexity expr = [success "Estimated Time Complexity: O(n²)"] /\
  estimate expr = Some Quadratic /\
  forall expr', estimate expr' = estimate expr.
Proof.
  split; [reflexivity|]. split; [reflexivity|]. intros expr'. reflexivity.
Qed.

(** C2 on the code: the single loop that the page itself lists as
    [# Single loop → O(n)] and the empty text are both reported quadratic,
    not linear and not constant; only the nested pair gets the class the
    claim names. *)
Theorem estimate_ignores_structure :
  estimate single_loop_example = Some Quadratic /\
  estimate single_loop_example <> Some Linear /\
  estimate EmptyString = Some Quadratic /\
  estimate EmptyString <> Some Constant /\
  estimate default_expr = Some Quadratic.
Proof.
  repeat split; try reflexivity; discriminate.
Qed.

End Estimation.

(** ** More on the counts of the four branches *)

Section CountsCompared.

Import Py Simulator Notions.
Local Open Scope Z_scope.



(** X1: on a size [>= 0] the Linear run returns the size itself as its
    count, together with the difference of the two clock readings. *)
Theorem linear_run_counts_size (start stop : Q) (size : Z) :
  0 <= size ->
  simulate start stop Linear size
  = Returned {| algorithmId := Linear; inputSize := size;
                operationCount := size;
                elapsedTimeSeconds := (stop - start)%Q |}.
Proof.
  intros H. unfold simulate. rewrite run_branch_Linear. cbn [bind].
  rewrite Z.max_r by exact H. reflexivity.
Qed.

Lemma linear_run_counts_size_witness :
  0 <= 1000 /\
  simulate 0 1 Linear 1000
  = Returned {| algorithmId := Linear; inputSize := 1000;
                operationCount := 1000;
                elapsedTimeSeconds := (1 - 0)%Q |}.
Proof.
  split; [lia | apply (linear_run_counts_size 0 1 1000); lia].
Defined.







End CountsCompared.

(** ** The handler as a whole: runtimes and their report *)

Section Handler.

Import Py Simulator Builtins Report.
Local Open Scope Z_scope.











End Handler.

(** ** The Theta page on its own samples *)

Section ThetaSamples.

Import St Theta.
Local Open Scope Q_scope.

Lemma enveloped_pointwise (c1 c2 : Q) (n : list Q) :
  enveloped (scaled_square c1 n) (f n) (scaled_square c2 n) <->
  Forall (fun v => c1 * v ^ 2 <= v ^ 2 + 2 * v + 1 /\
                   v ^ 2 + 2 * v + 1 <= c2 * v ^ 2) n.
Proof.
  unfold enveloped, scaled_square, f. induction n as [|v n IH]; cbn [map].
  - split; [constructor | split; constructor].
  - split.
    + intros [Hl Hu]. inversion Hl; subst. inversion Hu; subst.
      constructor; [split; assumption|]. apply IH. split; assumption.
    + intros H. inversion H as [|? ? [Hv1 Hv2] Hn]; subst.
      apply IH in Hn. destruct Hn as [Hl Hu].
      split; constructor; assumption.
Qed.

Lemma Forall_last {A : Type} (P : A -> Prop) (l : list A) (d : A) :
  l <> [] -> Forall P l -> P (last l d).
Proof.
  intros Hne H. apply (proj1 (Forall_forall P l) H).
  destruct (exists_last Hne) as [l' [a ->]].
  rewrite last_last. apply in_or_app. right. left. reflexivity.
Qed.

Lemma page_samples_range :
  Forall (fun v => 1 <= v /\ v <= 50) (linspace 1 50 200).
Proof.
  apply Forall_forall. intros v Hin.
  assert (Hb : forallb (fun v => Qle_bool 1 v && Qle_bool v 50)
                       (linspace 1 50 200) = true)
    by (vm_compute; reflexivity).
  pose proof (proj1 (forallb_forall _ _) Hb v Hin) as Hv.
  apply andb_true_iff in Hv. destruct Hv as [H1 H2].
  split; apply Qle_bool_iff; assumption.
Qed.

(** The lower bound holds up to [n = 50] exactly when [c1 <= 2601/2500];
    the upper bound holds from [n = 1] exactly when [c2 >= 4]. *)
Lemma lower_point (c1 v : Q) :
  c1 <= 2601 # 2500 -> 1 <= v -> v <= 50 -> c1 * v ^ 2 <= v ^ 2 + 2 * v + 1.
Proof.
  intros Hc H1 H50. simpl.
  assert (Hsq : 0 <= v * v) by nra.
  assert (Hc' : c1 * (v * v) <= (2601 # 2500) * (v * v)).
  { apply Qmult_le_compat_r; assumption. }
  assert (Hp : 0 <= (50 - v) * (50 + 101 * v)).
  { apply Qmult_le_0_compat; lra. }
  nra.
Qed.

Lemma upper_point (c2 v : Q) :
  4 <= c2 -> 1 <= v -> v ^ 2 + 2 * v + 1 <= c2 * v ^ 2.
Proof.
  intros Hc H1. simpl.
  assert (Hsq : 0 <= v * v) by nra.
  assert (Hc' : 4 * (v * v) <= c2 * (v * v)).
  { apply Qmult_le_compat_r; assumption. }
  nra.
Qed.

(** X7: with [c1 < c2] the page draws its chart and prints
    [c₁·n² ≤ f(n) ≤ c₂·n²]; on the 200 samples it draws, that inequality
    holds at every sample exactly when [c1 <= 2601/2500] and [c2 >= 4]. *)
Theorem page_envelope_exactly_when (c1 c2 : Q) :
  c1 < c2 ->
  exists lower upper target,
    theta_page c1 c2
    = [plotly_chart [lower; upper; target];
       success "c₁·n² ≤ f(n) ≤ c₂·n² → Θ(n²)"] /\
    List.length (x target) = 200%nat /\
    (enveloped (y lower) (y target) (y upper) <->
     c1 <= 2601 # 2500 /\ 4 <= c2).
Proof.
  intros Hlt. unfold theta_page, composeBounds.
  rewrite (proj2 (Qlt_bool_iff c1 c2) Hlt).
  do 3 eexists. split; [reflexivity|]. cbn [x y].
  split; [vm_compute; reflexivity|].
  rewrite enveloped_pointwise. split.
  - intros H. split.
    + assert (Hne : linspace 1 50 200 <> []) by (vm_compute; discriminate).
      pose proof (Forall_last _ _ 0 Hne H) as [Hl _].
      assert (E : last (linspace 1 50 200) 0 == 50) by (vm_compute; reflexivity).
      rewrite E in Hl. simpl in Hl. lra.
    + assert (Hhd : exists tl, linspace 1 50 200 = (199 # 199) :: tl).
      { eexists. vm_compute. reflexivity. }
      destruct Hhd as [tl Etl]. rewrite Etl in H.
      inversion H as [|? ? [_ Hu] _]; subst.
      assert (E : 199 # 199 == 1) by reflexivity.
      rewrite E in Hu. simpl in Hu. lra.
  - intros [Hc1 Hc2].
    eapply Forall_impl; [|exact page_samples_range].
    intros v [H1 H50]. split.
    + apply lower_point; assumption.
    + apply upper_point; assumption.
Qed.

Lemma page_envelope_exactly_when_witness :
  (1 # 2) < 2 /\
  exists lower upper target,
    theta_page (1 # 2) 2
    = [plotly_chart [lower; upper; target];
       success "c₁·n² ≤ f(n) ≤ c₂·n² → Θ(n²)"] /\
    List.length (x target) = 200%nat /\
    (enveloped (y lower) (y target) (y upper) <->
     (1 # 2) <= 2601 # 2500 /\ 4 <= 2).
Proof.
  assert (H : (1 # 2) < 2) by reflexivity.
  split; [exact H | exact (page_envelope_exactly_when (1 # 2) 2 H)].
Defined.

End ThetaSamples.

(** ** The envelope beyond a threshold *)

Section ThetaThreshold.

Import St Theta.
Local Open Scope Q_scope.

Lemma upper_point_from (c2 t v : Q) :
  0 <= t -> t ^ 2 + 2 * t + 1 <= c2 * t ^ 2 -> t <= v ->
  v ^ 2 + 2 * v + 1 <= c2 * v ^ 2.
Proof.
  simpl. intros Ht Hc Htv.
  assert (Htpos : 0 < t).
  { destruct (Qlt_le_dec 0 t) as [Hp|Hn]; [exact Hp|].
    assert (E : t == 0) by (apply Qle_antisym; assumption).
    rewrite E in Hc. lra. }
  assert (Ht2 : 0 < t * t) by nra.
  assert (Hcross : (v + 1) * t <= (t + 1) * v) by nra.
  assert (Hsq : ((v + 1) * t) * ((v + 1) * t) <= ((t + 1) * v) * ((t + 1) * v)).
  { apply Qmult_le_compat_nonneg; split; nra. }
  assert (Hscaled : (t * t + 2 * t + 1) * (v * v) <= c2 * (t * t) * (v * v)).
  { apply Qmult_le_compat_r; [exact Hc | nra]. }
  apply (Qmult_le_r _ _ (t * t) Ht2). nra.
Qed.

(** X8: if [c1 <= 1] and the upper bound holds at some [t >= 0], then on
    every sample vector whose values are all at least [t] the guard passes,
    the three traces are built and lower <= target <= upper at every
    sample. *)
Theorem envelope_from_threshold (c1 c2 t : Q) (n : list Q) :
  c1 <= 1 -> 0 <= t -> t ^ 2 + 2 * t + 1 <= c2 * t ^ 2 ->
  Forall (fun v => t <= v) n ->
  composeBounds c1 c2 n
  = [ plotly_chart
        [ {| x := n; y := scaled_square c1 n; name := "Lower Bound" |};
          {| x := n; y := scaled_square c2 n; name := "Upper Bound" |};
          {| x := n; y := f n; name := "f(n)" |} ];
      success "c₁·n² ≤ f(n) ≤ c₂·n² → Θ(n²)" ] /\
  enveloped (scaled_square c1 n) (f n) (scaled_square c2 n).
Proof.
  intros Hc1 Ht Hc2 Hn. split.
  - unfold composeBounds.
    assert (Hlt : c1 < c2).
    { simpl in Hc2.
      destruct (Qlt_le_dec c1 c2) as [Hlt|Hge]; [exact Hlt|].
      assert (Hsq : 0 <= t * t) by nra.
      assert (c2 * (t * t) <= 1 * (t * t)).
      { apply Qmult_le_compat_r; [lra | exact Hsq]. }
      lra. }
    rewrite (proj2 (Qlt_bool_iff c1 c2) Hlt). reflexivity.
  - apply enveloped_pointwise.
    eapply Forall_impl; [|exact Hn].
    intros v Hv. cbv beta in Hv. split.
    + simpl. assert (Hsq : 0 <= v * v) by nra.
      assert (c1 * (v * v) <= 1 * (v * v)).
      { apply Qmult_le_compat_r; assumption. }
      nra.
    + apply (upper_point_from c2 t v); assumption.
Qed.

Lemma envelope_from_threshold_witness :
  (1 # 2) <= 1 /\ 0 <= 3 /\ 3 ^ 2 + 2 * 3 + 1 <= 2 * 3 ^ 2 /\
  Forall (fun v => 3 <= v) [3; 7 # 2; 50] /\
  composeBounds (1 # 2) 2 [3; 7 # 2; 50]
  = [ plotly_chart
        [ {| x := [3; 7 # 2; 50]; y := scaled_square (1 # 2) [3; 7 # 2; 50];
             name := "Lower Bound" |};
          {| x := [3; 7 # 2; 50]; y := scaled_square 2 [3; 7 # 2; 50];
             name := "Upper Bound" |};
          {| x := [3; 7 # 2; 50]; y := f [3; 7 # 2; 50]; name := "f(n)" |} ];
      success "c₁·n² ≤ f(n) ≤ c₂·n² → Θ(n²)" ] /\
  enveloped (scaled_square (1 # 2) [3; 7 # 2; 50]) (f [3; 7 # 2; 50])
            (scaled_square 2 [3; 7 # 2; 50]).
Proof.
  assert (H1 : (1 # 2) <= 1) by (unfold Qle; cbn; lia).
  assert (H2 : 0 <= 3) by (unfold Qle; cbn; lia).
  assert (H3 : 3 ^ 2 + 2 * 3 + 1 <= 2 * 3 ^ 2) by (unfold Qle; cbn; lia).
  assert (H4 : Forall (fun v => 3 <= v) [3; 7 # 2; 50]).
  { repeat constructor; unfold Qle; cbn; lia. }
  split; [exact H1|]. split; [exact H2|]. split; [exact H3|].
  split; [exact H4|].
  exact (envelope_from_threshold (1 # 2) 2 3 [3; 7 # 2; 50] H1 H2 H3 H4).
Defined.

End ThetaThreshold.

(** ** How the growth curves compare *)

Section GrowthCompared.

Import Growth.
Local Open Scope R_scope.


Lemma log2_2 : log2 2 = 1.
Proof.
  unfold log2. field. pose proof ln2_pos. lra.
Qed.

Lemma log2_lt (a b : R) : 0 < a -> a < b -> log2 a < log2 b.
Proof.
  intros Ha Hab. unfold log2.
  apply Rmult_lt_compat_r.
  - apply Rinv_0_lt_compat, ln2_pos.
  - apply ln_increasing; assumption.
Qed.




(** X10: the ['O(2ⁿ)'] entry is the true power of two at the integers up to
    20, never exceeds [2^20 = 1048576], and from [n = 1024] on lies below
    the quadratic curve. *)
Theorem exponential_entry_is_capped :
  (forall k : nat, (k <= 20)%nat -> evaluate ExponentialBounded (INR k) = 2 ^ k) /\
  (forall n : R, evaluate ExponentialBounded n <= 1048576) /\
  (forall n : R, 1024 <= n ->
                 evaluate ExponentialBounded n <= evaluate Quadratic n).
Proof.
  assert (Hcap : forall n : R, evaluate ExponentialBounded n <= 1048576).
  { intros n. unfold evaluate, funcs, exp2, CAP.
    replace 1048576 with (Rpower 2 (INR 20)).
    - apply Rle_Rpower; [lra|].
      replace (INR 20) with 20 by (simpl; lra). apply Rmin_r.
    - rewrite Rpower_pow by lra. simpl. lra. }
  split; [|split].
  - intros k Hk. unfold evaluate, funcs, exp2, CAP.
    rewrite Rmin_left.
    + apply Rpower_pow. lra.
    + replace 20 with (INR 20) by (simpl; lra). apply le_INR. exact Hk.
  - exact Hcap.
  - intros n Hn. apply Rle_trans with 1048576; [apply Hcap|].
    unfold evaluate, funcs. simpl. nra.
Qed.

End GrowthCompared.

(** ** The growth plot of the Time Complexity page and the Analysis
       Importance metrics *)

Section PlotsAndMetrics.

Import Py Theta Growth Report.

Lemma in_range (n i : Z) : In i (range n) -> (0 <= i < n)%Z.
Proof.
  unfold range. intros H. apply in_map_iff in H.
  destruct H as [k [<- Hk]]. apply in_seq in Hk. lia.
Qed.

(** The samples of [linspace] lie between its two ends. *)
Lemma linspace_bounds (start stop : Q) (num : Z) :
  (2 <= num)%Z -> (start <= stop)%Q ->
  Forall (fun v => start <= v /\ v <= stop)%Q (linspace start stop num).
Proof.
  intros Hnum Hle. unfold linspace. apply Forall_forall.
  intros v Hin. apply in_map_iff in Hin. destruct Hin as [i [<- Hi]].
  apply in_range in Hi.
  set (d := inject_Z (num - 1)).
  assert (Hd : (0 < d)%Q).
  { unfold d, Qlt. simpl. lia. }
  set (step := ((stop - start) / d)%Q).
  assert (Hstep : (d * step == stop - start)%Q).
  { unfold step. apply Qmult_div_r.
    intros E. rewrite E in Hd. apply (Qlt_irrefl 0). exact Hd. }
  assert (Hi0 : (0 <= inject_Z i)%Q).
  { unfold Qle. simpl. lia. }
  assert (Hid : (inject_Z i <= d)%Q).
  { unfold d. rewrite <- Zle_Qle. lia. }
  assert (Hs0 : (0 <= step)%Q).
  { destruct (Qlt_le_dec step 0) as [Hneg|Hpos]; [|exact Hpos].
    assert (step * d < 0 * d)%Q
      by (apply Qmult_lt_compat_r; assumption).
    nra. }
  assert (Hprod0 : (0 <= inject_Z i * step)%Q)
    by (apply Qmult_le_0_compat; assumption).
  assert (Hprod1 : (inject_Z i * step <= d * step)%Q)
    by (apply Qmult_le_compat_r; assumption).
  split; nra.
Qed.

Local Open Scope R_scope.

(** X11: for every size the slider offers, each value of each of the four
    curves of the growth plot is greater than 1, so every point has a place
    on the logarithmic axis. *)
Theorem growth_plot_fits_log_axis (size : Z) (c : ComplexityClass) :
  Simulator.slider_size size -> In c plot_curves ->
  List.length (plot_values c size) = 200%nat /\
  Forall (fun value => 1 < value) (plot_values c size).
Proof.
  intros [Hlo Hhi] Hc. unfold Simulator.size_min in Hlo.
  unfold plot_values, plot_samples. split.
  { rewrite length_map. unfold linspace. rewrite length_map.
    unfold range. rewrite length_map, length_seq. reflexivity. }
  apply Forall_map.
  assert (Hle : (10 <= inject_Z size)%Q).
  { unfold Qle. simpl. lia. }
  eapply Forall_impl;
    [|exact (linspace_bounds 10 (inject_Z size) 200 ltac:(lia) Hle)].
  intros v [Hv _]. cbv beta.
  apply Qreals.Qle_Rle in Hv.
  replace (Q2R 10) with 10 in Hv by (unfold Q2R; simpl; lra).
  set (r := Q2R v) in *.
  assert (Hlog : 1 < log2 r).
  { rewrite <- log2_2. apply log2_lt; lra. }
  destruct Hc as [<- | [<- | [<- | [<- | []]]]]; cbn [funcs].
  - lra.
  - nra.
  - simpl. nra.
  - exact Hlog.
Qed.

Lemma growth_plot_fits_log_axis_witness :
  Simulator.slider_size 1000 /\ In Logarithmic plot_curves /\
  List.length (plot_values Logarithmic 1000) = 200%nat /\
  Forall (fun value => 1 < value) (plot_values Logarithmic 1000).
Proof.
  assert (H1 : Simulator.slider_size 1000).
  { unfold Simulator.slider_size, Simulator.size_min, Simulator.size_max.
    lia. }
  assert (H2 : In Logarithmic plot_curves).
  { right. right. right. left. reflexivity. }
  split; [exact H1|]. split; [exact H2|].
  exact (growth_plot_fits_log_axis 1000 Logarithmic H1 H2).
Defined.

Import Importance.

(** X12: for every size the Dataset Size slider offers, [bin] lies between
    9 and 20, so the division [lin / bin] is defined and the reported
    speed-up is more than 25; [int(lin)] is [size // 2]. *)
Theorem importance_metrics_defined (size : Z) :
  Importance.slider_size size ->
  9 <= bin size < 20 /\
  25 < speedup size /\
  IZR (int_lin size) <= lin size < IZR (int_lin size) + 1.
Proof.
  intros [Hlo Hhi].
  pose proof (Zlog2_pow_floor size 1 ltac:(lia) ltac:(lia)) as F.
  rewrite Z.pow_1_r, Rmult_1_l in F.
  assert (H9 : (9 <= Z.log2 size)%Z).
  { change 9%Z with (Z.log2 1000). apply Z.log2_le_mono. exact Hlo. }
  assert (H19 : (Z.log2 size <= 19)%Z).
  { change 19%Z with (Z.log2 1000000). apply Z.log2_le_mono. exact Hhi. }
  apply IZR_le in H9, H19.
  assert (Hbin : 9 <= bin size < 20) by (unfold bin; lra).
  assert (Hlin : 500 <= lin size).
  { unfold lin. apply IZR_le in Hlo. lra. }
  split; [exact Hbin|]. split.
  - unfold speedup.
    apply (Rmult_lt_reg_r (bin size)); [lra|].
    unfold Rdiv. rewrite Rmult_assoc, Rinv_l by lra. nra.
  - unfold lin, int_lin.
    pose proof (Z.div_mod size 2 ltac:(lia)) as E.
    pose proof (Z.mod_pos_bound size 2 ltac:(lia)) as [M0 M1].
    assert (M2 : (size mod 2 <= 1)%Z) by lia.
    apply IZR_le in M0, M2.
    apply (f_equal IZR) in E. rewrite plus_IZR, mult_IZR in E.
    lra.
Qed.

Lemma importance_metrics_defined_witness :
  Importance.slider_size 100000 /\
  9 <= bin 100000 < 20 /\
  25 < speedup 100000 /\
  IZR (int_lin 100000) <= lin 100000 < IZR (int_lin 100000) + 1.
Proof.
  assert (H : Importance.slider_size 100000)
    by (unfold Importance.slider_size; lia).
  split; [exact H | exact (importance_metrics_defined 100000 H)].
Defined.

End PlotsAndMetrics.

(** ** The Algorithm Cases page *)

Section SearchCases.

Import Py Builtins Cases.
Local Open Scope Z_scope.

Lemma range_from_nil (a b : Z) : b <= a -> range_from a b = [].
Proof.
  intros H. unfold range_from. rewrite range_nonpos by lia. reflexivity.
Qed.

Lemma range_from_cons (a b : Z) :
  a < b -> range_from a b = a :: range_from (a + 1) b.
Proof.
  intros H. unfold range_from, range.
  replace (Z.to_nat (b - a)) with (S (Z.to_nat (b - (a + 1)))) by lia.
  cbn [seq map]. rewrite Z.add_0_r. f_equal.
  rewrite <- seq_shift, !map_map. apply map_ext.
  intros k. lia.
Qed.

Lemma range_from_length (a b : Z) :
  Z.of_nat (List.length (range_from a b)) = Z.max 0 (b - a).
Proof.
  unfold range_from. rewrite length_map. apply range_length.
Qed.

Lemma in_range_from (a b v : Z) : In v (range_from a b) <-> a <= v < b.
Proof.
  unfold range_from, range. rewrite map_map, in_map_iff. split.
  - intros [k [<- Hk]]. apply in_seq in Hk. lia.
  - intros H. exists (Z.to_nat (v - a)). split; [lia|].
    apply in_seq. lia.
Qed.

(** [index] on a range: the offset of [x] when it is inside, the error
    otherwise. *)
Lemma index_from_range (m : nat) :
  forall a b x i,
    Z.to_nat (b - a) = m ->
    index_from (range_from a b) x i
    = if (a <=? x) && (x <? b) then Returned (i + (x - a))
      else Raised (ValueError (String.append (repr x) " is not in list")).
Proof.
  induction m as [|m IH]; intros a b x i Hm.
  - rewrite range_from_nil by lia. cbn [index_from].
    destruct (Z.leb_spec a x), (Z.ltb_spec x b); cbn [andb];
      try reflexivity; lia.
  - rewrite range_from_cons by lia. cbn [index_from].
    destruct (Z.eqb_spec a x) as [->|Hne].
    + rewrite Z.leb_refl. destruct (Z.ltb_spec x b); [|lia].
      cbn [andb]. f_equal. lia.
    + rewrite (IH (a + 1) b x (i + 1)) by lia.
      destruct (Z.leb_spec (a + 1) x), (Z.leb_spec a x), (Z.ltb_spec x b);
        cbn [andb]; try reflexivity; try lia.
      f_equal. lia.
Qed.

Lemma pos_inside (size target : Z) :
  1 <= target <= size -> pos size target = Returned target.
Proof.
  intros H. unfold pos, index, arr.
  rewrite (index_from_range _ 1 (size + 1) target 0 eq_refl).
  destruct (Z.leb_spec 1 target), (Z.ltb_spec target (size + 1)); try lia.
  cbn [andb bind]. f_equal. lia.
Qed.

Lemma pos_outside (size target : Z) :
  ~ 1 <= target <= size ->
  pos size target
  = Raised (ValueError (String.append (repr target) " is not in list")).
Proof.
  intros H. unfold pos, index, arr.
  rewrite (index_from_range _ 1 (size + 1) target 0 eq_refl).
  destruct (Z.leb_spec 1 target), (Z.ltb_spec target (size + 1));
    cbn [andb bind]; try reflexivity; lia.
Qed.

(** X13: for a target the number input admits, the page's "Your Case" is
    the target itself, and the four metrics are ordered: best <= your case
    <= worst and best <= average <= worst. *)
Theorem your_case_is_target (size target : Z) :
  target_input size target ->
  metrics size target
  = Returned {| best := 1; your := target;
                average := (inject_Z (size + 1) / 2)%Q; worst := size |} /\
  1 <= target <= size /\
  (1 <= inject_Z (size + 1) / 2 <= inject_Z size)%Q.
Proof.
  intros H. unfold target_input in H. unfold metrics.
  rewrite pos_inside by exact H. cbn [bind].
  split; [reflexivity|]. split; [exact H|].
  assert (Hs : 1 <= size) by lia.
  unfold Qle, Qdiv, Qmult, Qinv, inject_Z. cbn. lia.
Qed.

Lemma your_case_is_target_witness :
  target_input 10 7 /\
  metrics 10 7
  = Returned {| best := 1; your := 7;
                average := (inject_Z (10 + 1) / 2)%Q; worst := 10 |} /\
  1 <= 7 <= 10 /\
  (1 <= inject_Z (10 + 1) / 2 <= inject_Z 10)%Q.
Proof.
  assert (H : target_input 10 7) by (unfold target_input; lia).
  split; [exact H | exact (your_case_is_target 10 7 H)].
Defined.

(** X14: a target outside [1 .. size] is not found: [arr.index] raises
    [ValueError] with the text "<target> is not in list" and no metric is
    produced. *)
Theorem target_outside_raises (size target : Z) :
  ~ target_input size target ->
  metrics size target
  = Raised (ValueError (String.append (repr target) " is not in list")).
Proof.
  intros H. unfold metrics. rewrite pos_outside by exact H. reflexivity.
Qed.

Lemma target_outside_raises_witness :
  ~ target_input 10 11 /\
  metrics 10 11 = Raised (ValueError "11 is not in list").
Proof.
  assert (H : ~ target_input 10 11) by (unfold target_input; lia).
  split; [exact H | exact (target_outside_raises 10 11 H)].
Defined.

Lemma range_from_sum (m : nat) :
  forall a b, Z.to_nat (b - a) = m ->
  2 * fold_right Z.add 0 (range_from a b)
  = Z.of_nat m * (2 * a + Z.of_nat m - 1).
Proof.
  induction m as [|m IH]; intros a b Hm.
  - rewrite range_from_nil by lia. reflexivity.
  - rewrite range_from_cons by lia. cbn [fold_right].
    rewrite Z.mul_add_distr_l, (IH (a + 1) b) by lia.
    rewrite Nat2Z.inj_succ. nia.
Qed.

(** X15: the "Average Case" metric [(size + 1) / 2] is the mean of "Your
    Case" over all the targets of the array: every element of [arr] is found
    at its own value, and the positions add up to [size * (size + 1) / 2]. *)
Theorem average_is_mean_position (size : Z) :
  1 <= size ->
  Forall (fun target => pos size target = Returned target) (arr size) /\
  Z.of_nat (List.length (arr size)) = size /\
  (inject_Z (fold_right Z.add 0%Z (arr size)) / inject_Z size
   == inject_Z (size + 1) / 2)%Q.
Proof.
  intros H. split; [|split].
  - apply Forall_forall. intros target Hin.
    apply in_range_from in Hin. apply pos_inside. lia.
  - unfold arr. rewrite range_from_length. lia.
  - pose proof (range_from_sum _ 1 (size + 1) eq_refl) as S.
    fold (arr size) in S.
    replace (size + 1 - 1) with size in S by lia.
    rewrite Z2Nat.id in S by lia.
    set (total := fold_right Z.add 0 (arr size)) in *.
    destruct size as [|p|p]; try lia.
    unfold Qeq, Qdiv, Qmult, Qinv, inject_Z. cbn. nia.
Qed.

Lemma average_is_mean_position_witness :
  1 <= 10 /\
  Forall (fun target => pos 10 target = Returned target) (arr 10) /\
  Z.of_nat (List.length (arr 10)) = 10 /\
  (inject_Z (fold_right Z.add 0%Z (arr 10)) / inject_Z 10
   == inject_Z (10 + 1) / 2)%Q.
Proof.
  split; [lia | apply (average_is_mean_position 10); lia].
Defined.

End SearchCases.

(** ** The Big-O page *)

Section BigOPage.

Import Builtins BigO.
Local Open Scope Z_scope.

Lemma wrap64_exact (z : Z) : - 2 ^ 63 <= z < 2 ^ 63 -> wrap64 z = z.
Proof.
  intros H. unfold wrap64.
  rewrite Z.mod_small by (change (2 ^ 64) with (2 ^ 63 + 2 ^ 63); lia).
  lia.
Qed.

Lemma cube_fits (v : Z) : 0 <= v <= 2097151 -> 0 <= v ^ 3 < 2 ^ 63.
Proof.
  intros H. split; [apply Z.pow_nonneg; lia|].
  apply Z.le_lt_trans with (2097151 ^ 3).
  - apply Z.pow_le_mono_l. exact H.
  - reflexivity.
Qed.

Lemma square_fits (v : Z) : 0 <= v <= 2097151 -> 0 <= v ^ 2 <= 2097151 ^ 2.
Proof.
  intros H. split; [apply Z.pow_nonneg; lia|].
  apply Z.pow_le_mono_l. exact H.
Qed.

(** X16: for [n_max] up to 2097151, so for every value of the slider, no
    entry of [mapping] overflows its 64-bit element: the four arrays hold
    exactly [n], [n^2], [2 n^2] and [n^3].  The bound is sharp: at
    [n = 2097152] the cube wraps to a negative number. *)
Theorem mapping_is_exact (n_max : Z) :
  n_max <= 2097151 ->
  mapping (range_from 1 (n_max + 1))
  = [ ("n", range_from 1 (n_max + 1));
      ("n²", map (fun v => v ^ 2) (range_from 1 (n_max + 1)));
      ("2n²", map (fun v => 2 * v ^ 2) (range_from 1 (n_max + 1)));
      ("n³", map (fun v => v ^ 3) (range_from 1 (n_max + 1))) ]%string /\
  array_pow [2097152] 3 = [- 2 ^ 63].
Proof.
  intros H. split; [|reflexivity].
  set (n := range_from 1 (n_max + 1)).
  assert (Hin : forall v, In v n -> 0 <= v <= 2097151).
  { intros v Hv. apply in_range_from in Hv. lia. }
  assert (E2 : array_pow n 2 = map (fun v => v ^ 2) n).
  { apply map_ext_in. intros v Hv.
    pose proof (square_fits v (Hin v Hv)) as S.
    change (2097151 ^ 2) with 4398042316801 in S.
    apply wrap64_exact. change (2 ^ 63) with 9223372036854775808. lia. }
  assert (E22 : array_scale 2 (array_pow n 2) = map (fun v => 2 * v ^ 2) n).
  { rewrite E2. unfold array_scale. rewrite map_map.
    apply map_ext_in. intros v Hv.
    pose proof (square_fits v (Hin v Hv)) as S.
    change (2097151 ^ 2) with 4398042316801 in S.
    apply wrap64_exact. change (2 ^ 63) with 9223372036854775808. lia. }
  assert (E3 : array_pow n 3 = map (fun v => v ^ 3) n).
  { apply map_ext_in. intros v Hv.
    pose proof (cube_fits v (Hin v Hv)) as C.
    apply wrap64_exact. lia. }
  unfold mapping. rewrite E22, E2, E3. reflexivity.
Qed.

Lemma mapping_is_exact_witness :
  500 <= 2097151 /\
  mapping (range_from 1 (500 + 1))
  = [ ("n", range_from 1 (500 + 1));
      ("n²", map (fun v => v ^ 2) (range_from 1 (500 + 1)));
      ("2n²", map (fun v => 2 * v ^ 2) (range_from 1 (500 + 1)));
      ("n³", map (fun v => v ^ 3) (range_from 1 (500 + 1))) ]%string /\
  array_pow [2097152] 3 = [- 2 ^ 63].
Proof.
  split; [lia | apply (mapping_is_exact 500); lia].
Defined.

Lemma getitem_mapping (n : list Z) (f : string) :
  In f options ->
  exists ys, getitem (mapping n) f = Some ys /\
             List.length ys = List.length n /\
             In (f, ys) (mapping n).
Proof.
  unfold options. intros [<- | [<- | [<- | [<- | []]]]];
    eexists; (split; [reflexivity|]); unfold mapping, array_pow, array_scale;
    rewrite ?length_map; (split; [reflexivity|]); cbn; tauto.
Qed.

Lemma add_traces_selected (n : list Z) (funcs : list string) :
  Forall (fun f => In f options) funcs ->
  exists fig,
    add_traces n funcs = Some fig /\
    map name fig = funcs /\
    Forall (fun t => x t = n /\ List.length (y t) = List.length n /\
                     In (name t, y t) (mapping n)) fig.
Proof.
  induction 1 as [|f rest Hf Hrest [fig [E [Hnames Hall]]]].
  - exists []. repeat split; constructor.
  - destruct (getitem_mapping n f Hf) as [ys [G [L I]]].
    exists ({| x := n; y := ys; name := f |} :: fig).
    cbn [add_traces]. rewrite G, E. cbn [option_map map name].
    split; [reflexivity|]. split; [rewrite Hnames; reflexivity|].
    constructor; [cbn; tauto | exact Hall].
Qed.

(** X17: with a non-empty selection among the four options the page draws
    one chart with one trace per selected function, in the order selected,
    each over [x = 1 .. n_max] with as many values, taken from [mapping]
    under the trace's own name: no key is ever missing.  With an empty
    selection it draws nothing. *)
Theorem page_draws_selected (funcs : list string) (n_max : Z) :
  Forall (fun f => In f options) funcs -> 0 <= n_max ->
  page [] n_max = Some [] /\
  (funcs <> [] ->
   exists fig,
     page funcs n_max = Some [fig] /\
     map name fig = funcs /\
     Forall (fun t => x t = range_from 1 (n_max + 1) /\
                      Z.of_nat (List.length (y t)) = n_max /\
                      In (name t, y t) (mapping (range_from 1 (n_max + 1))))
            fig).
Proof.
  intros Hsel Hn. split; [reflexivity|]. intros Hne.
  destruct (add_traces_selected (range_from 1 (n_max + 1)) funcs Hsel)
    as [fig [E [Hnames Hall]]].
  exists fig. split.
  - unfold page. destruct funcs as [|f rest]; [contradiction|].
    cbv zeta. rewrite E. reflexivity.
  - split; [exact Hnames|].
    eapply Forall_impl; [|exact Hall].
    intros t [Hx [Hy Hin]]. split; [exact Hx|]. split; [|exact Hin].
    rewrite Hy, range_from_length. lia.
Qed.

Lemma page_draws_selected_witness :
  Forall (fun f => In f options) ["n²"; "2n²"]%string /\ 0 <= 100 /\
  ["n²"; "2n²"]%string <> [] /\
  page [] 100 = Some [] /\
  exists fig,
    page ["n²"; "2n²"]%string 100 = Some [fig] /\
    map name fig = ["n²"; "2n²"]%string /\
    Forall (fun t => x t = range_from 1 (100 + 1) /\
                     Z.of_nat (List.length (y t)) = 100 /\
                     In (name t, y t) (mapping (range_from 1 (100 + 1))))
           fig.
Proof.
  assert (H1 : Forall (fun f => In f options) ["n²"; "2n²"]%string).
  { repeat constructor; cbn; tauto. }
  assert (H2 : 0 <= 100) by lia.
  assert (H3 : ["n²"; "2n²"]%string <> []) by discriminate.
  split; [exact H1|]. split; [exact H2|]. split; [exact H3|].
  split.
  - exact (proj1 (page_draws_selected _ 100 H1 H2)).
  - exact (proj2 (page_draws_selected _ 100 H1 H2) H3).
Defined.

(** X18: a function name that is not one of the four options has no entry
    in [mapping], and a selection containing it stops the page with the
    missing key. *)
Theorem page_unknown_function (funcs : list string) (n_max : Z) :
  ~ Forall (fun f => In f options) funcs ->
  page funcs n_max = None.
Proof.
  intros H.
  assert (Hadd : forall n, add_traces n funcs = None).
  { intros n. induction funcs as [|f rest IH].
    - exfalso. apply H. constructor.
    - cbn [add_traces].
      destruct (getitem (mapping n) f) as [ys|] eqn:G; [|reflexivity].
      assert (Hf : In f options).
      { unfold getitem, mapping in G. cbn [lookup] in G. unfold options.
        repeat match type of G with
               | (if String.eqb ?k f then _ else _) = _ =>
                   destruct (String.eqb_spec k f) as [<-|_];
                   [cbn; tauto|]
               end.
        discriminate G. }
      rewrite IH; [reflexivity|].
      intros Hrest. apply H. constructor; assumption. }
  unfold page. destruct funcs as [|f rest].
  - exfalso. apply H. constructor.
  - cbv zeta. rewrite Hadd. reflexivity.
Qed.

Lemma page_unknown_function_witness :
  ~ Forall (fun f => In f options) ["n"; "log n"]%string /\
  page ["n"; "log n"]%string 100 = None.
Proof.
  assert (H : ~ Forall (fun f => In f options) ["n"; "log n"]%string).
  { intros F. inversion F as [|? ? _ F']; subst.
    inversion F' as [|? ? Hin _]; subst.
    cbn in Hin. destruct Hin as [E | [E | [E | [E | []]]]]; discriminate E. }
  split; [exact H | exact (page_unknown_function _ 100 H)].
Defined.

(** X19: on [1 .. n_max], with [n_max] up to 2097151, the curves stand in
    the order n <= n^2 <= 2 n^2 and n^2 <= n^3 at every point; 2 n^2 is
    above n^3 at the first point and at most n^3 from the second on. *)
Theorem big_o_curves_ordered (n_max : Z) :
  1 <= n_max -> n_max <= 2097151 ->
  exists tail,
    range_from 1 (n_max + 1) = 1 :: tail /\
    Forall (fun v => v <= wrap64 (v ^ 2) /\
                     wrap64 (v ^ 2) <= wrap64 (2 * wrap64 (v ^ 2)) /\
                     wrap64 (v ^ 2) <= wrap64 (v ^ 3))
           (1 :: tail) /\
    wrap64 (1 ^ 3) < wrap64 (2 * wrap64 (1 ^ 2)) /\
    Forall (fun v => wrap64 (2 * wrap64 (v ^ 2)) <= wrap64 (v ^ 3)) tail.
Proof.
  intros H1 Hmax. exists (range_from 2 (n_max + 1)).
  split; [apply (range_from_cons 1 (n_max + 1)); lia|].
  assert (Hexact : forall v, 1 <= v <= n_max ->
            wrap64 (v ^ 2) = v * v /\ wrap64 (2 * wrap64 (v ^ 2)) = 2 * (v * v)
            /\ wrap64 (v ^ 3) = v * v * v).
  { intros v Hv.
    pose proof (square_fits v ltac:(lia)) as S.
    pose proof (cube_fits v ltac:(lia)) as C.
    change (2097151 ^ 2) with 4398042316801 in S.
    change (2 ^ 63) with 9223372036854775808 in C.
    assert (E2 : wrap64 (v ^ 2) = v ^ 2)
      by (apply wrap64_exact; change (2 ^ 63) with 9223372036854775808; lia).
    rewrite E2.
    rewrite (wrap64_exact (2 * v ^ 2))
      by (change (2 ^ 63) with 9223372036854775808; lia).
    rewrite (wrap64_exact (v ^ 3))
      by (change (2 ^ 63) with 9223372036854775808; lia).
    repeat split; ring. }
  split; [|split].
  - apply Forall_forall. intros v Hv.
    assert (Hr : 1 <= v <= n_max).
    { destruct Hv as [<- | Hv]; [lia|]. apply in_range_from in Hv. lia. }
    destruct (Hexact v Hr) as [E2 [E22 E3]].
    rewrite E22, E2, E3. nia.
  - reflexivity.
  - apply Forall_forall. intros v Hv. apply in_range_from in Hv.
    destruct (Hexact v ltac:(lia)) as [E2 [E22 E3]].
    rewrite E22, E3. nia.
Qed.

Lemma big_o_curves_ordered_witness :
  1 <= 500 /\ 500 <= 2097151 /\
  exists tail,
    range_from 1 (500 + 1) = 1 :: tail /\
    Forall (fun v => v <= wrap64 (v ^ 2) /\
                     wrap64 (v ^ 2) <= wrap64 (2 * wrap64 (v ^ 2)) /\
                     wrap64 (v ^ 2) <= wrap64 (v ^ 3))
           (1 :: tail) /\
    wrap64 (1 ^ 3) < wrap64 (2 * wrap64 (1 ^ 2)) /\
    Forall (fun v => wrap64 (2 * wrap64 (v ^ 2)) <= wrap64 (v ^ 3)) tail.
Proof.
  split; [lia|]. split; [lia|].
  apply (big_o_curves_ordered 500); lia.
Defined.

End BigOPage.

(** ** The Space Complexity page *)

Section SpacePage.

Import Builtins Space.
Local Open Scope Z_scope.

(** Closes every part of the table statement once [alg] is one of the
    keys. *)
Ltac solve_row :=
  cbn; repeat split; intros; try discriminate; try congruence; try tauto;
  try match goal with
      | H : Some _ = Some _ |- _ => injection H as <- <-
      end;
  try lia; try reflexivity;
  repeat match goal with
         | H : _ \/ _ |- _ => destruct H
         end;
  try discriminate; try congruence.

(** X20: the page has a metric and a label exactly for the four options of
    its selectbox; it shows 100 and [O(n)] for Recursive Fibonacci and Merge
    Sort, 1 and [O(1)] for Iterative Fibonacci and Bubble Sort, so [O(n)]
    stands exactly where the usage is above 1. *)
Theorem space_page_table (alg : string) :
  (page alg <> None <-> In alg options) /\
  (page alg = Some (100, "O(n)"%string) <->
   alg = "Recursive Fibonacci"%string \/ alg = "Merge Sort"%string) /\
  (page alg = Some (1, "O(1)"%string) <->
   alg = "Iterative Fibonacci"%string \/ alg = "Bubble Sort"%string) /\
  (forall u l, page alg = Some (u, l) ->
               (l = "O(n)"%string <-> 1 < u) /\
               (l = "O(1)"%string <-> u = 1)).
Proof.
  unfold page, getitem, usage, options. cbn [lookup].
  destruct (String.eqb_spec "Iterative Fibonacci" alg) as [<-|N1].
  { solve_row. }
  destruct (String.eqb_spec "Recursive Fibonacci" alg) as [<-|N2].
  { solve_row. }
  destruct (String.eqb_spec "Merge Sort" alg) as [<-|N3].
  { solve_row. }
  destruct (String.eqb_spec "Bubble Sort" alg) as [<-|N4].
  { solve_row. }
  repeat split; intros; try discriminate; try congruence;
    repeat match goal with
           | H : In _ _ |- _ => cbn in H
           | H : _ \/ _ |- _ => destruct H
           | H : False |- _ => destruct H
           end; try congruence.
Qed.

End SpacePage.
